(** * AutoChain: the OpenAI chat adapter ([autochain/models/chat_openai.py])

    A shallow embedding of [ChatOpenAI]: the construction-time validator
    [validate_environment], the request builder [_create_message_dicts], the
    response reshaper [_create_llm_result] and the entry point [generate],
    together with the properties the adapter is expected to have.

    Python dictionaries are finite maps with string keys, exceptions are an
    explicit outcome, and the two pieces of mutable state the adapter can
    touch (the interpreter's environment and the adapter instance itself)
    are threaded through a small state-and-exception monad. *)

From stdpp Require Import gmap strings list fin_maps.
From Stdlib Require Import ZArith.

Set Warnings "-register-all".
Set Default Proof Using "Type".
Open Scope string_scope.
Open Scope list_scope.

(** ** Python values *)

(** The [Any]-typed data that flows through the adapter. A float is kept as
    its IEEE 754 bit pattern: the adapter never computes with one. [VObject]
    stands for an opaque object known by name only (a class, a client). *)
Inductive value : Type :=
  | VNone
  | VBool (b : bool)
  | VInt (n : Z)
  | VFloat (bits : Z)
  | VStr (s : string)
  | VList (items : list value)
  | VDict (entries : gmap string value)
  | VObject (name : string).

Abbreviation dict := (gmap string value).

(** ** Exceptions and outcomes *)

Inductive exception : Type :=
  | KeyError (key : string)
  | ValueError (msg : string)
  | TypeError (msg : string)
  | Raised (cls msg : string).

Inductive outcome (A : Type) : Type :=
  | Returns (a : A)
  | Raises (e : exception).
Arguments Returns {A} a.
Arguments Raises {A} e.

#[global] Instance outcome_ret : MRet outcome := λ A a, Returns a.
#[global] Instance outcome_bind : MBind outcome := λ A B f m,
  match m with
  | Returns a => f a
  | Raises e => Raises e
  end.
#[global] Instance outcome_fmap : FMap outcome := λ A B f m,
  match m with
  | Returns a => Returns (f a)
  | Raises e => Raises e
  end.

Definition returned {A} (m : outcome A) : Prop := ∃ a, m = Returns a.

(** A computation over a mutable state [S] that may raise. An exception
    keeps the state reached so far. *)
Definition Py (S A : Type) : Type := S → outcome A * S.

#[global] Instance Py_ret {S} : MRet (Py S) := λ A a s, (Returns a, s).
#[global] Instance Py_bind {S} : MBind (Py S) := λ A B f m s,
  match m s with
  | (Returns a, s') => f a s'
  | (Raises e, s') => (Raises e, s')
  end.

Definition raise {S A} (e : exception) : Py S A := λ s, (Raises e, s).
Definition lift {S A} (m : outcome A) : Py S A := λ s, (m, s).
Definition gets {S A} (f : S → A) : Py S A := λ s, (Returns (f s), s).
Definition modify {S} (f : S → S) : Py S () := λ s, (Returns (), f s).

(** ** Primitive operations on values *)

(** [d[key]] on a mapping. *)
Definition getitem (d : dict) (key : string) : outcome value :=
  match d !! key with
  | Some v => Returns v
  | None => Raises (KeyError key)
  end.

(** [v[key]] with a string key on an arbitrary value. *)
Definition subscript (v : value) (key : string) : outcome value :=
  match v with
  | VDict d => getitem d key
  | VList _ => Raises (TypeError "list indices must be integers or slices, not str")
  | VStr _ => Raises (TypeError "string indices must be integers")
  | _ => Raises (TypeError "object is not subscriptable")
  end.

Fixpoint chars (s : string) : list value :=
  match s with
  | EmptyString => []
  | String c s' => VStr (String c EmptyString) :: chars s'
  end.

(** [for x in v]: the elements the loop visits. A mapping yields its keys,
    a string its characters. *)
Definition iterate (v : value) : outcome (list value) :=
  match v with
  | VList items => Returns items
  | VDict d => Returns (VStr <$> (map_to_list d).*1)
  | VStr s => Returns (chars s)
  | _ => Raises (TypeError "object is not iterable")
  end.

(** [f(name=v, **rest)]: a keyword given twice is rejected before [f] runs. *)
Definition keyword_call (name : string) (v : value) (rest : dict) : outcome dict :=
  match rest !! name with
  | Some _ => Raises (TypeError "got multiple values for keyword argument")
  | None => Returns (<[name := v]> rest)
  end.

(** ** Construction-time validation *)

(** The [openai] package as the validator sees it: a module with an
    assignable [api_key] attribute and, in recent enough versions, a
    [ChatCompletion] attribute. *)
Record openai_module : Type := {
  api_key : option string;
  ChatCompletion : option value
}.

(** What the validator can observe and change: [os.environ], the [openai]
    module if the package is installed ([None] when [import openai] raises
    [ImportError]), and the requests sent to the remote endpoint so far. *)
Record interpreter : Type := {
  environ : gmap string string;
  openai : option openai_module;
  sent : list dict
}.

Definition set_api_key (key : string) (i : interpreter) : interpreter :=
  {| environ := environ i;
     openai := (λ m, {| api_key := Some key; ChatCompletion := ChatCompletion m |})
                 <$> openai i;
     sent := sent i |}.

(** [os.environ[name]] *)
Definition os_environ (name : string) : Py interpreter string := λ i,
  match environ i !! name with
  | Some v => (Returns v, i)
  | None => (Raises (KeyError name), i)
  end.

Definition import_error_message : string :=
  "Could not import openai python package. Please install it with `pip install openai`.".

Definition old_package_message : string :=
  "`openai` has no `ChatCompletion` attribute, this is likely due to an old version of the openai package. Try upgrading it with `pip install --upgrade openai`.".

(** [import openai], with the [ImportError] turned into a [ValueError]. The
    two cases the validator tells apart are modelled: the package is there,
    or importing it raises [ImportError]. *)
Definition import_openai : Py interpreter openai_module := λ i,
  match openai i with
  | Some m => (Returns m, i)
  | None => (Raises (ValueError import_error_message), i)
  end.

(** [openai.ChatCompletion], with the [AttributeError] turned into a
    [ValueError]. *)
Definition get_ChatCompletion (m : openai_module) : Py interpreter value :=
  match ChatCompletion m with
  | Some c => mret c
  | None => raise (ValueError old_package_message)
  end.

Definition validate_environment (values : dict) : Py interpreter dict :=
  openai_api_key ← os_environ "OPENAI_API_KEY";
  m ← import_openai;
  _ ← modify (set_api_key openai_api_key);
  client ← get_ChatCompletion m;
  mret (<["client" := client]> values).

Definition is_ValueError (e : exception) : Prop := ∃ msg, e = ValueError msg.

(** ** The adapter instance *)

(** The fields declared on [ChatOpenAI]. *)
Record ChatOpenAI : Type := {
  client : value;
  model_name : string;
  temperature : value;
  model_kwargs : dict;
  openai_api_key : option string;
  openai_organization : option string;
  request_timeout : option value;
  max_retries : Z;
  max_tokens : option Z
}.

(** ** Collaborators defined outside this module *)

(** [autochain.agent.message.BaseMessage] and the two converters imported
    from [autochain.models.base]. Their bodies are not part of this module;
    each may raise. *)
Class Messages : Type := {
  BaseMessage : Type;
  convert_message_to_dict : BaseMessage → outcome dict;
  convert_dict_to_message : value → outcome BaseMessage
}.

(** The member [ChatOpenAI] inherits from [BaseLanguageModel] and reads as
    [self._default_params]. *)
Class BaseLanguageModel : Type := {
  _default_params : ChatOpenAI → dict
}.

(** The inherited [generate_with_retry], called with keyword arguments only.
    Its body is not part of this module: given the instance and the keyword
    arguments it yields the endpoint's response or an exception, and the
    instance as it leaves it. *)
Class Endpoint : Type := {
  generate_with_retry : ChatOpenAI → dict → outcome dict * ChatOpenAI
}.

(** The endpoint never reassigns a field of the instance. *)
Definition preserves_instance (E : Endpoint) : Prop :=
  ∀ this kwargs, (generate_with_retry this kwargs).2 = this.

(** Modelled from the spec: [Generation] is declared in
    [autochain.models.base], outside this module; it is a generation result
    wrapping one produced message, built here as [Generation(message=...)]. *)
Record Generation `{Messages} : Type := {
  message : BaseMessage
}.

(** Modelled from the spec: [LLMResult] is declared in
    [autochain.models.base], outside this module; it bundles all generations
    with the usage metadata of one request, built here as
    [LLMResult(generations=..., llm_output=...)]. *)
Record LLMResult `{Messages} : Type := {
  generations : list Generation;
  llm_output : dict
}.

(** ** Requests and responses *)

(** The adapter instance [self] and the log of invocations of
    [generate_with_retry], each with the keyword arguments it received. *)
Record session : Type := {
  self : ChatOpenAI;
  api_calls : list dict
}.

Definition call_generate_with_retry `{Endpoint} (kwargs : dict) : Py session dict := λ s,
  let (response, self') := generate_with_retry (self s) kwargs in
  (response, {| self := self'; api_calls := api_calls s ++ [kwargs] |}).

Definition stop_conflict_message : string :=
  "`stop` found in both the input and default params.".

(** [{**{"model": self.model_name}, **self._default_params}]: on a shared key
    the right operand wins. *)
Definition base_params `{BaseLanguageModel} (this : ChatOpenAI) : dict :=
  _default_params this ∪ {[ "model" := VStr (model_name this) ]}.

(** The Python list of strings a stop list is passed as. *)
Definition stop_value (stop : list string) : value := VList (VStr <$> stop).

Definition _create_message_dicts `{Messages, BaseLanguageModel}
    (messages : list BaseMessage) (stop : option (list string))
  : Py session (list dict * dict) :=
  params ← gets (λ s, base_params (self s));
  params ← match stop with
           | Some stop =>
               match params !! "stop" with
               | Some _ => raise (ValueError stop_conflict_message)
               | None => mret (<["stop" := stop_value stop]> params)
               end
           | None => mret params
           end;
  message_dicts ← lift (mapM convert_message_to_dict messages);
  mret (message_dicts, params).

(** The body of the loop over the choices: the list built so far is extended
    at its end. *)
Fixpoint append_generations `{Messages}
    (choices : list value) (generations : list Generation)
  : outcome (list Generation) :=
  match choices with
  | [] => Returns generations
  | res :: rest =>
      m ← subscript res "message";
      message ← convert_dict_to_message m;
      append_generations rest (generations ++ [ {| message := message |} ])
  end.

Definition _create_llm_result `{Messages} (response : dict) : Py session LLMResult :=
  choices ← lift (getitem response "choices");
  choices ← lift (iterate choices);
  generations ← lift (append_generations choices []);
  usage ← lift (getitem response "usage");
  model_name ← gets (λ s, model_name (self s));
  mret {| generations := generations;
          llm_output := {[ "token_usage" := usage; "model_name" := VStr model_name ]} |}.

Definition generate `{Messages, BaseLanguageModel, Endpoint}
    (messages : list BaseMessage) (stop : option (list string))
  : Py session LLMResult :=
  '(message_dicts, params) ← _create_message_dicts messages stop;
  kwargs ← lift (keyword_call "messages" (VList (VDict <$> message_dicts)) params);
  response ← call_generate_with_retry kwargs;
  _create_llm_result response.

(** ** Vocabulary for the properties *)

(** The message a single choice stands for: [convert_dict_to_message] applied
    to its ["message"] entry. *)
Definition choice_message `{Messages} (res : value) : outcome BaseMessage :=
  m ← subscript res "message";
  convert_dict_to_message m.

(** A stop list is given although the default parameters already carry a
    ["stop"] entry. *)
Definition stop_conflict `{BaseLanguageModel}
    (stop : option (list string)) (this : ChatOpenAI) : Prop :=
  is_Some stop ∧ is_Some (_default_params this !! "stop").

(** The parameters of a request made with [stop], absent a conflict. *)
Definition params_with `{BaseLanguageModel}
    (stop : option (list string)) (this : ChatOpenAI) : dict :=
  match stop with
  | Some stop => <["stop" := stop_value stop]> (base_params this)
  | None => base_params this
  end.

(** ** Concrete collaborators and instances used in the examples *)

(** Messages as (role, content) pairs, converted to and from
    [{"role": ..., "content": ...}]. *)
Definition pair_to_dict (m : string * string) : outcome dict :=
  Returns {[ "role" := VStr m.1; "content" := VStr m.2 ]}.

Definition dict_to_pair (v : value) : outcome (string * string) :=
  role ← subscript v "role";
  content ← subscript v "content";
  match role, content with
  | VStr r, VStr c => Returns (r, c)
  | _, _ => Raises (ValueError "role and content must be strings")
  end.

Definition pair_messages : Messages :=
  {| BaseMessage := string * string;
     convert_message_to_dict := pair_to_dict;
     convert_dict_to_message := dict_to_pair |}.

(** Default parameters: the sampling temperature, overridden by whatever
    [model_kwargs] holds. *)
Definition kwargs_defaults : BaseLanguageModel :=
  {| _default_params := λ this,
       model_kwargs this ∪ {[ "temperature" := temperature this ]} |}.

(** An endpoint that answers every request with the same outcome and leaves
    the instance alone. *)
Definition constant_endpoint (answer : outcome dict) : Endpoint :=
  {| generate_with_retry := λ this _, (answer, this) |}.

Definition adapter_with (kwargs : dict) : ChatOpenAI :=
  {| client := VObject "openai.ChatCompletion";
     model_name := "gpt-3.5-turbo";
     temperature := VInt 0;
     model_kwargs := kwargs;
     openai_api_key := None;
     openai_organization := None;
     request_timeout := None;
     max_retries := 6;
     max_tokens := None |}.

Definition fresh_session (kwargs : dict) : session :=
  {| self := adapter_with kwargs; api_calls := [] |}.

Definition choice (role content : string) : value :=
  VDict {[ "message" := VDict {[ "role" := VStr role; "content" := VStr content ]} ]}.

Definition usage_report : value :=
  VDict {[ "prompt_tokens" := VInt 9; "completion_tokens" := VInt 12;
           "total_tokens" := VInt 21 ]}.

Definition two_choice_response : dict :=
  {[ "choices" := VList [choice "assistant" "Hello"; choice "assistant" "Hi there"];
     "usage" := usage_report ]}.

Definition two_choice_result : @LLMResult pair_messages :=
  {| generations := [ @Build_Generation pair_messages ("assistant", "Hello");
                      @Build_Generation pair_messages ("assistant", "Hi there") ];
     llm_output := {[ "token_usage" := usage_report;
                      "model_name" := VStr "gpt-3.5-turbo" ]} |}.

Definition response_without_usage : dict :=
  {[ "choices" := VList [choice "assistant" "Hello"] ]}.

Definition greeting : list (string * string) :=
  [("system", "Be brief."); ("user", "Hello?")].

Definition greeting_dicts : list dict :=
  [ {[ "role" := VStr "system"; "content" := VStr "Be brief." ]};
    {[ "role" := VStr "user"; "content" := VStr "Hello?" ]} ].

Definition stop_in_kwargs : dict := {[ "stop" := VList [VStr "END"] ]}.

(** Interpreters with and without the key, with a recent and an outdated
    [openai] package. *)
Definition recent_openai : openai_module :=
  {| api_key := None; ChatCompletion := Some (VObject "openai.ChatCompletion") |}.
Definition outdated_openai : openai_module :=
  {| api_key := None; ChatCompletion := None |}.
Definition interpreter_with (env : gmap string string) (m : option openai_module)
  : interpreter := {| environ := env; openai := m; sent := [] |}.
Definition with_key : gmap string string := {[ "OPENAI_API_KEY" := "sk-test" ]}.

(** Messages whose conversion to a dict rejects roles it does not know. *)
Definition known_roles : list string := ["system"; "user"; "assistant"].

Definition checked_pair_to_dict (m : string * string) : outcome dict :=
  if decide (m.1 ∈ known_roles) then pair_to_dict m
  else Raises (ValueError "Got unknown type").

Definition checked_messages : Messages :=
  {| BaseMessage := string * string;
     convert_message_to_dict := checked_pair_to_dict;
     convert_dict_to_message := dict_to_pair |}.

Definition messages_in_kwargs : dict := {[ "messages" := VList [] ]}.

Definition model_in_kwargs : dict := {[ "model" := VStr "gpt-4" ]}.

(** A response whose second choice has no ["message"] entry, and no
    ["usage"] either. *)
Definition broken_choice_response : dict :=
  {[ "choices" := VList [choice "assistant" "Hello"; VDict ∅;
                         choice "assistant" "Hi there"] ]}.

(** The two-choice response with the other fields the provider sends. *)
Definition verbose_response : dict :=
  <["id" := VStr "chatcmpl-1"]> (<["model" := VStr "gpt-4-0613"]> two_choice_response).

Definition validated_interpreter : interpreter :=
  {| environ := with_key;
     openai := Some {| api_key := Some "sk-test";
                       ChatCompletion := Some (VObject "openai.ChatCompletion") |};
     sent := [] |}.

(** The request sent for the greeting by an instance whose [model_kwargs]
    name another model. *)
Definition overridden_request : dict :=
  {[ "model" := VStr "gpt-4"; "temperature" := VInt 0;
     "messages" := VList (VDict <$> greeting_dicts) ]}.

Definition rate_limited : exception := Raised "RateLimitError" "slow down".

(** * Properties *)

(** ** Outcomes and in-order traversal *)

Section traversal.
Context {A B : Type} (f : A → outcome B).

Lemma mapM_nil : mapM f [] = Returns [].
Proof. reflexivity. Qed.

Lemma mapM_cons (x : A) (l : list A) :
  mapM f (x :: l) = y ← f x; k ← mapM f l; mret (y :: k).
Proof. reflexivity. Qed.

Lemma mapM_Returns (l : list A) (k : list B) :
  mapM f l = Returns k ↔ Forall2 (λ x y, f x = Returns y) l k.
Proof.
  revert k. induction l as [|x l IH]; intros k.
  - rewrite mapM_nil. split.
    + intros [= <-]. constructor.
    + intros Hk. by inversion Hk.
  - rewrite mapM_cons. split.
    + destruct (f x) as [y|e] eqn:Hx; [|done]. cbn.
      destruct (mapM f l) as [k'|e] eqn:Hl; [|done]. cbn.
      intros [= <-]. constructor; [done|]. by apply IH.
    + intros Hk. inversion Hk as [|? y ? k' Hx Hl]; subst.
      rewrite Hx. cbn. apply IH in Hl. by rewrite Hl.
Qed.

Lemma mapM_Returns_length (l : list A) (k : list B) :
  mapM f l = Returns k → length k = length l.
Proof. intros Hk%mapM_Returns. symmetry. by eapply Forall2_length. Qed.

Lemma mapM_Returns_lookup (l : list A) (k : list B) (i : nat) (x : A) :
  mapM f l = Returns k → l !! i = Some x → ∃ y, k !! i = Some y ∧ f x = Returns y.
Proof.
  intros Hk%mapM_Returns Hx.
  destruct (Forall2_lookup_l _ _ _ _ _ Hk Hx) as (y & Hy & Hxy). eauto.
Qed.

Lemma mapM_total (l : list A) :
  (∀ x, x ∈ l → returned (f x)) → returned (mapM f l).
Proof.
  induction l as [|x l IH]; intros Hl.
  - by exists [].
  - destruct (Hl x) as [y Hy]; [by left|].
    destruct IH as [k Hk]; [intros z Hz; apply Hl; by right|].
    exists (y :: k). rewrite mapM_cons, Hy. cbn. by rewrite Hk.
Qed.

End traversal.

(** ** Construction-time validation *)

Example validate_environment_ok :
  validate_environment ∅ (interpreter_with with_key (Some recent_openai))
  = (Returns {[ "client" := VObject "openai.ChatCompletion" ]},
     interpreter_with with_key
       (Some {| api_key := Some "sk-test";
                ChatCompletion := Some (VObject "openai.ChatCompletion") |})).
Proof. vm_compute. reflexivity. Qed.

Example validate_environment_not_installed :
  validate_environment ∅ (interpreter_with with_key None)
  = (Raises (ValueError import_error_message), interpreter_with with_key None).
Proof. reflexivity. Qed.

(** The validator sends nothing to the endpoint, whatever its outcome. *)
Lemma validate_environment_sends_nothing (values : dict) (i : interpreter) :
  sent (validate_environment values i).2 = sent i.
Proof.
  unfold validate_environment, os_environ, import_openai, get_ChatCompletion.
  cbv [mbind Py_bind modify raise mret Py_ret].
  destruct (environ i !! "OPENAI_API_KEY"); [|done].
  destruct (openai i) as [m|]; [|done].
  by destruct (ChatCompletion m).
Qed.

(** C3. Without [OPENAI_API_KEY] in the environment the validator raises
    (a [KeyError] from the environment lookup, its very first step): the
    interpreter is left exactly as it was, so the [openai] module is not
    touched and no request has gone to the remote endpoint. *)
Theorem validate_environment_missing_key (values : dict) (i : interpreter) :
  environ i !! "OPENAI_API_KEY" = None →
  validate_environment values i = (Raises (KeyError "OPENAI_API_KEY"), i)
  ∧ sent (validate_environment values i).2 = sent i.
Proof.
  intros Hkey. split; [|apply validate_environment_sends_nothing].
  unfold validate_environment, os_environ.
  cbv [mbind Py_bind]. by rewrite Hkey.
Qed.

Lemma validate_environment_missing_key_witness :
  environ (interpreter_with ∅ (Some recent_openai)) !! "OPENAI_API_KEY" = None
  ∧ validate_environment ∅ (interpreter_with ∅ (Some recent_openai))
  = (Raises (KeyError "OPENAI_API_KEY"), interpreter_with ∅ (Some recent_openai))
  ∧ sent (validate_environment ∅ (interpreter_with ∅ (Some recent_openai))).2
    = sent (interpreter_with ∅ (Some recent_openai)).
Proof.
  split; [reflexivity|].
  apply (validate_environment_missing_key ∅ (interpreter_with ∅ (Some recent_openai))).
  reflexivity.
Defined.

(** C4, as stated, fails: with an outdated [openai] package and no
    [OPENAI_API_KEY], validation raises the [KeyError] of the environment
    lookup, which comes first, and not a [ValueError]. *)
Lemma validate_environment_outdated_without_key :
  openai (interpreter_with ∅ (Some outdated_openai)) = Some outdated_openai
  ∧ ChatCompletion outdated_openai = None
  ∧ (validate_environment ∅ (interpreter_with ∅ (Some outdated_openai))).1
    = Raises (KeyError "OPENAI_API_KEY")
  ∧ ¬ ∃ e, (validate_environment ∅ (interpreter_with ∅ (Some outdated_openai))).1
           = Raises e ∧ is_ValueError e.
Proof.
  repeat split.
  intros (e & He & msg & ->). discriminate He.
Qed.

(** C4, amended. When [OPENAI_API_KEY] is set and the installed [openai]
    package has no [ChatCompletion] attribute, validation raises a
    [ValueError]; by then the key has been stored on the module, and no
    request has gone to the remote endpoint. *)
Theorem validate_environment_outdated_package
    (values : dict) (i : interpreter) (key : string) (m : openai_module) :
  environ i !! "OPENAI_API_KEY" = Some key →
  openai i = Some m →
  ChatCompletion m = None →
  validate_environment values i
  = (Raises (ValueError old_package_message), set_api_key key i)
  ∧ is_ValueError (ValueError old_package_message)
  ∧ sent (validate_environment values i).2 = sent i.
Proof.
  intros Hkey Hm Hattr.
  split; [|split; [by eexists|apply validate_environment_sends_nothing]].
  unfold validate_environment, os_environ, import_openai, get_ChatCompletion.
  cbv [mbind Py_bind modify raise]. by rewrite Hkey, Hm, Hattr.
Qed.

Lemma validate_environment_outdated_package_witness :
  environ (interpreter_with with_key (Some outdated_openai)) !! "OPENAI_API_KEY"
  = Some "sk-test"
  ∧ openai (interpreter_with with_key (Some outdated_openai)) = Some outdated_openai
  ∧ ChatCompletion outdated_openai = None
  ∧ validate_environment ∅ (interpreter_with with_key (Some outdated_openai))
  = (Raises (ValueError old_package_message),
     set_api_key "sk-test" (interpreter_with with_key (Some outdated_openai)))
  ∧ is_ValueError (ValueError old_package_message)
  ∧ sent (validate_environment ∅ (interpreter_with with_key (Some outdated_openai))).2
    = sent (interpreter_with with_key (Some outdated_openai)).
Proof.
  split; [reflexivity|]. split; [reflexivity|]. split; [reflexivity|].
  apply (validate_environment_outdated_package ∅
           (interpreter_with with_key (Some outdated_openai)) "sk-test" outdated_openai);
    reflexivity.
Defined.

(** ** Reshaping the response *)

Section response.
Context `{Messages}.

Lemma append_generations_cons (res : value) (rest : list value) (acc : list Generation) :
  append_generations (res :: rest) acc
  = message ← choice_message res;
    append_generations rest (acc ++ [ {| message := message |} ]).
Proof. unfold choice_message. cbn. by destruct (subscript res "message"). Qed.

(** The loop appends, in order, the generation of each choice to the list it
    started from, and stops at the first choice that has no usable message. *)
Lemma append_generations_mapM (choices : list value) (acc : list Generation) :
  append_generations choices acc
  = (λ ms, acc ++ (Build_Generation _ <$> ms)) <$> mapM choice_message choices.
Proof.
  revert acc. induction choices as [|res rest IH]; intros acc.
  - cbn. by rewrite app_nil_r.
  - rewrite append_generations_cons, mapM_cons.
    destruct (choice_message res) as [msg|e]; [|done]. cbn.
    rewrite IH. destruct (mapM choice_message rest) as [ms|e]; [|done]. cbn.
    by rewrite <- app_assoc.
Qed.

(** [_create_llm_result] only reads: its outcome is a function of the response
    and of [self.model_name], and the session is returned as it was. *)
Lemma create_llm_result_run (response : dict) (s : session) :
  _create_llm_result response s
  = (choices ← getitem response "choices";
     choices ← iterate choices;
     ms ← mapM choice_message choices;
     usage ← getitem response "usage";
     mret {| generations := Build_Generation _ <$> ms;
             llm_output := {[ "token_usage" := usage;
                              "model_name" := VStr (model_name (self s)) ]} |},
     s).
Proof.
  unfold _create_llm_result. cbv [mbind Py_bind lift gets mret Py_ret].
  destruct (getitem response "choices") as [choices|e]; [|done]. cbn.
  destruct (iterate choices) as [items|e]; [|done]. cbn.
  rewrite append_generations_mapM.
  destruct (mapM choice_message items) as [ms|e]; [|done]. cbn.
  by destruct (getitem response "usage").
Qed.

Lemma create_llm_result_returns (response : dict) (s : session) (r : LLMResult) :
  (_create_llm_result response s).1 = Returns r →
  ∃ choices items ms usage,
    response !! "choices" = Some choices ∧ iterate choices = Returns items
    ∧ mapM choice_message items = Returns ms
    ∧ response !! "usage" = Some usage
    ∧ r = {| generations := Build_Generation _ <$> ms;
             llm_output := {[ "token_usage" := usage;
                              "model_name" := VStr (model_name (self s)) ]} |}.
Proof.
  rewrite create_llm_result_run. cbn. unfold getitem.
  destruct (response !! "choices") as [choices|]; [|done]. cbn.
  destruct (iterate choices) as [items|e] eqn:Hitems; [|done]. cbn.
  destruct (mapM choice_message items) as [ms|e] eqn:Hms; [|done]. cbn.
  destruct (response !! "usage") as [usage|]; [|done]. cbn.
  unfold mret, outcome_ret. intros [= <-]. by exists choices, items, ms, usage.
Qed.

(** A choice has a message exactly when it is a mapping whose ["message"]
    entry the converter accepts. *)
Lemma choice_message_Returns (res : value) (m : BaseMessage) :
  choice_message res = Returns m
  ↔ ∃ d v, res = VDict d ∧ d !! "message" = Some v
           ∧ convert_dict_to_message v = Returns m.
Proof.
  unfold choice_message. split.
  - destruct res as [| | | | | |d|]; try done. cbn. unfold getitem.
    destruct (d !! "message") as [v|] eqn:Hv; [|done]. cbn. eauto.
  - intros (d & v & -> & Hv & Hm). cbn. unfold getitem. by rewrite Hv.
Qed.

(** C1, amended. For a response that has a ["usage"] entry and whose
    ["choices"] is a list of n choices, each with a message the converter
    accepts, [_create_llm_result] returns a result with exactly n
    generations, the i-th wrapping the message converted from the i-th
    choice, in the order of the choices. The session is left as it was. *)
Theorem create_llm_result_generations
    (response : dict) (choices : list value) (usage : value) (s : session) :
  response !! "choices" = Some (VList choices) →
  response !! "usage" = Some usage →
  (∀ res, res ∈ choices → returned (choice_message res)) →
  ∃ r, _create_llm_result response s = (Returns r, s)
       ∧ length (generations r) = length choices
       ∧ ∀ i res, choices !! i = Some res →
           ∃ g, generations r !! i = Some g
                ∧ choice_message res = Returns (message g).
Proof.
  intros Hchoices Husage Hall.
  destruct (mapM_total choice_message choices Hall) as [ms Hms].
  rewrite create_llm_result_run. unfold getitem.
  rewrite Hchoices, Husage. cbn. rewrite Hms. cbn.
  eexists. split; [reflexivity|]. cbn. split.
  - rewrite length_fmap. by eapply mapM_Returns_length.
  - intros i res Hres.
    destruct (mapM_Returns_lookup _ _ _ _ _ Hms Hres) as (m & Hm & Hconv).
    exists {| message := m |}. split; [|done].
    by rewrite list_lookup_fmap, Hm.
Qed.

(** C5. Whenever [_create_llm_result] builds a result, the response has a
    ["usage"] entry and the result's [llm_output["token_usage"]] is that
    very value. *)
Theorem create_llm_result_token_usage
    (response : dict) (s : session) (r : LLMResult) :
  (_create_llm_result response s).1 = Returns r →
  is_Some (response !! "usage")
  ∧ llm_output r !! "token_usage" = response !! "usage".
Proof.
  intros (choices & items & ms & usage & _ & _ & _ & Husage & ->)
    %create_llm_result_returns.
  rewrite Husage. split; [by eexists|]. cbn. by rewrite lookup_insert_eq.
Qed.

(** The result's [llm_output["model_name"]] is [self.model_name] as read
    when the result is built. *)
Lemma create_llm_result_model_name
    (response : dict) (s : session) (r : LLMResult) :
  (_create_llm_result response s).1 = Returns r →
  llm_output r !! "model_name" = Some (VStr (model_name (self s))).
Proof.
  intros (choices & items & ms & usage & _ & _ & _ & _ & ->)
    %create_llm_result_returns.
  cbn. rewrite lookup_insert_ne by done. by rewrite lookup_singleton_eq.
Qed.

Lemma create_llm_result_session (response : dict) (s : session) :
  (_create_llm_result response s).2 = s.
Proof. by rewrite create_llm_result_run. Qed.

End response.

Example create_llm_result_two_choices :
  @_create_llm_result pair_messages two_choice_response (fresh_session ∅)
  = (Returns two_choice_result, fresh_session ∅).
Proof. vm_compute. reflexivity. Qed.

Lemma create_llm_result_generations_witness :
  two_choice_response !! "choices"
  = Some (VList [choice "assistant" "Hello"; choice "assistant" "Hi there"])
  ∧ two_choice_response !! "usage" = Some usage_report
  ∧ ∃ r, @_create_llm_result pair_messages two_choice_response (fresh_session ∅)
         = (Returns r, fresh_session ∅)
         ∧ length (generations r) = 2.
Proof.
  split; [reflexivity|]. split; [reflexivity|].
  destruct (@create_llm_result_generations pair_messages two_choice_response
              [choice "assistant" "Hello"; choice "assistant" "Hi there"]
              usage_report (fresh_session ∅)) as (r & Hr & Hlen & _).
  - reflexivity.
  - reflexivity.
  - intros res Hres. apply list_elem_of_In in Hres.
    destruct Hres as [<-|[<-|[]]]; eexists; vm_compute; reflexivity.
  - exists r. split; [exact Hr|exact Hlen].
Defined.

(** C1, as stated, fails: a response whose ["choices"] list has one
    well-formed choice but which has no ["usage"] entry makes
    [_create_llm_result] raise [KeyError] instead of returning. *)
Lemma create_llm_result_without_usage :
  response_without_usage !! "choices" = Some (VList [choice "assistant" "Hello"])
  ∧ @choice_message pair_messages (choice "assistant" "Hello")
    = Returns ("assistant", "Hello")
  ∧ (@_create_llm_result pair_messages response_without_usage (fresh_session ∅)).1
    = Raises (KeyError "usage")
  ∧ ¬ returned
        (@_create_llm_result pair_messages response_without_usage (fresh_session ∅)).1.
Proof.
  split; [reflexivity|]. split; [vm_compute; reflexivity|].
  split; [vm_compute; reflexivity|].
  intros [r Hr]. vm_compute in Hr. discriminate Hr.
Qed.

Lemma create_llm_result_token_usage_witness :
  (@_create_llm_result pair_messages two_choice_response (fresh_session ∅)).1
  = Returns two_choice_result
  ∧ is_Some (two_choice_response !! "usage")
  ∧ llm_output two_choice_result !! "token_usage" = two_choice_response !! "usage".
Proof.
  split; [vm_compute; reflexivity|].
  apply (@create_llm_result_token_usage pair_messages two_choice_response
           (fresh_session ∅) two_choice_result).
  vm_compute. reflexivity.
Defined.

(** ** Building the request *)

Section request.
Context `{Messages, BaseLanguageModel}.

(** The ["model"] entry never shadows a default parameter, and leaves every
    other key to the defaults. *)
Lemma base_params_lookup_ne (this : ChatOpenAI) (key : string) :
  key ≠ "model" → base_params this !! key = _default_params this !! key.
Proof.
  intros Hne. unfold base_params. rewrite lookup_union.
  rewrite lookup_singleton_ne by done. by destruct (_default_params this !! key).
Qed.

Lemma base_params_stop (this : ChatOpenAI) :
  base_params this !! "stop" = _default_params this !! "stop".
Proof. by apply base_params_lookup_ne. Qed.

Lemma create_message_dicts_conflict
    (messages : list BaseMessage) (stop : option (list string)) (s : session) :
  stop_conflict stop (self s) →
  _create_message_dicts messages stop s
  = (Raises (ValueError stop_conflict_message), s).
Proof.
  intros [[stop' ->] [v Hv]]. rewrite <- base_params_stop in Hv.
  unfold _create_message_dicts. cbv [mbind Py_bind gets raise]. by rewrite Hv.
Qed.

Lemma create_message_dicts_no_conflict
    (messages : list BaseMessage) (stop : option (list string)) (s : session) :
  ¬ stop_conflict stop (self s) →
  _create_message_dicts messages stop s
  = ((λ dicts, (dicts, params_with stop (self s)))
       <$> mapM convert_message_to_dict messages, s).
Proof.
  intros Hfree. unfold _create_message_dicts.
  cbv [mbind Py_bind gets raise lift mret Py_ret].
  destruct stop as [stop'|]; cbn.
  - destruct (base_params (self s) !! "stop") as [v|] eqn:Hv.
    + destruct Hfree. split; [by eexists|]. rewrite <- base_params_stop. by eexists.
    + by destruct (mapM convert_message_to_dict messages).
  - by destruct (mapM convert_message_to_dict messages).
Qed.

(** [_create_message_dicts] only reads the session. *)
Lemma create_message_dicts_session
    (messages : list BaseMessage) (stop : option (list string)) (s : session) :
  (_create_message_dicts messages stop s).2 = s.
Proof.
  destruct (decide (stop_conflict stop (self s))) as [Hc|Hc].
  - by rewrite create_message_dicts_conflict.
  - by rewrite create_message_dicts_no_conflict.
Qed.

(** C2, amended. Unless a stop list is given while the default parameters
    already carry ["stop"], and provided the converter accepts every message,
    [_create_message_dicts] returns as many request dicts as there are
    messages, the i-th being [convert_message_to_dict] of the i-th message:
    order is kept and each converted dict is passed on untouched. *)
Theorem create_message_dicts_converts
    (messages : list BaseMessage) (stop : option (list string)) (s : session) :
  ¬ stop_conflict stop (self s) →
  (∀ m, m ∈ messages → returned (convert_message_to_dict m)) →
  ∃ dicts params,
    _create_message_dicts messages stop s = (Returns (dicts, params), s)
    ∧ length dicts = length messages
    ∧ ∀ i m, messages !! i = Some m →
        ∃ d, dicts !! i = Some d ∧ convert_message_to_dict m = Returns d.
Proof.
  intros Hfree Hall.
  destruct (mapM_total convert_message_to_dict messages Hall) as [dicts Hdicts].
  exists dicts, (params_with stop (self s)).
  rewrite create_message_dicts_no_conflict by done. rewrite Hdicts.
  split; [done|]. split.
  - by eapply mapM_Returns_length.
  - intros i m Hm. by eapply mapM_Returns_lookup.
Qed.

(** What [_create_message_dicts] returns, it returns with the parameters
    [params_with] describes. *)
Lemma create_message_dicts_returns
    (messages : list BaseMessage) (stop : option (list string)) (s : session)
    (dicts : list dict) (params : dict) :
  (_create_message_dicts messages stop s).1 = Returns (dicts, params) →
  ¬ stop_conflict stop (self s)
  ∧ mapM convert_message_to_dict messages = Returns dicts
  ∧ params = params_with stop (self s).
Proof.
  destruct (decide (stop_conflict stop (self s))) as [Hc|Hc].
  - by rewrite create_message_dicts_conflict.
  - rewrite create_message_dicts_no_conflict by done. cbn.
    destruct (mapM convert_message_to_dict messages) as [dicts'|e]; [|done].
    cbn. by intros [= <- <-].
Qed.

End request.

Lemma create_message_dicts_converts_witness :
  ¬ @stop_conflict kwargs_defaults (Some ["END"]) (self (fresh_session ∅))
  ∧ ∃ dicts params,
      @_create_message_dicts pair_messages kwargs_defaults greeting (Some ["END"])
        (fresh_session ∅)
      = (Returns (dicts, params), fresh_session ∅)
      ∧ length dicts = 2.
Proof.
  assert (Hfree : ¬ @stop_conflict kwargs_defaults (Some ["END"])
                      (self (fresh_session ∅))).
  { intros [_ [v Hv]]. vm_compute in Hv. discriminate Hv. }
  split; [exact Hfree|].
  destruct (@create_message_dicts_converts pair_messages kwargs_defaults
              greeting (Some ["END"]) (fresh_session ∅) Hfree)
    as (dicts & params & Hrun & Hlen & _).
  - intros m _. by eexists.
  - exists dicts, params. split; [exact Hrun|exact Hlen].
Defined.

(** C2, as stated, fails: with a stop list given and ["stop"] already among
    the default parameters (here through [model_kwargs]),
    [_create_message_dicts] raises and returns no list of dicts at all. *)
Lemma create_message_dicts_stop_conflict :
  (@_create_message_dicts pair_messages kwargs_defaults greeting (Some ["END"])
     (fresh_session stop_in_kwargs)).1
  = Raises (ValueError stop_conflict_message)
  ∧ ¬ returned
        (@_create_message_dicts pair_messages kwargs_defaults greeting (Some ["END"])
           (fresh_session stop_in_kwargs)).1.
Proof.
  split; [vm_compute; reflexivity|].
  intros [r Hr]. vm_compute in Hr. discriminate Hr.
Qed.

(** ** The round trip *)

Section round_trip.
Context `{Messages, BaseLanguageModel}.

Lemma keyword_call_Returns (name : string) (v : value) (rest kwargs : dict) :
  keyword_call name v rest = Returns kwargs
  ↔ rest !! name = None ∧ kwargs = <[name := v]> rest.
Proof.
  unfold keyword_call. destruct (rest !! name); split.
  - done.
  - by intros [? _].
  - by intros [= <-].
  - by intros [_ ->].
Qed.

(** One invocation of the inherited method: the call is logged, and the
    instance is whatever the method leaves. *)
Lemma call_generate_with_retry_run `{Endpoint} (kwargs : dict) (s : session) :
  call_generate_with_retry kwargs s
  = ((generate_with_retry (self s) kwargs).1,
     {| self := (generate_with_retry (self s) kwargs).2;
        api_calls := api_calls s ++ [kwargs] |}).
Proof.
  unfold call_generate_with_retry. by destruct (generate_with_retry (self s) kwargs).
Qed.

(** [generate], step by step: build the request, bind the keyword
    arguments, call once, reshape. *)
Lemma generate_run `{Endpoint}
    (messages : list BaseMessage) (stop : option (list string)) (s : session) :
  generate messages stop s
  = match (_create_message_dicts messages stop s).1 with
    | Raises e => (Raises e, s)
    | Returns (dicts, params) =>
        match keyword_call "messages" (VList (VDict <$> dicts)) params with
        | Raises e => (Raises e, s)
        | Returns kwargs =>
            let s' := {| self := (generate_with_retry (self s) kwargs).2;
                         api_calls := api_calls s ++ [kwargs] |} in
            match (generate_with_retry (self s) kwargs).1 with
            | Raises e => (Raises e, s')
            | Returns response => _create_llm_result response s'
            end
        end
    end.
Proof.
  unfold generate. cbv [mbind Py_bind lift].
  pose proof (create_message_dicts_session messages stop s) as Hs.
  destruct (_create_message_dicts messages stop s) as [[[dicts params]|e] s0];
    cbn in Hs |- *; subst s0; [|done].
  destruct (keyword_call "messages" (VList (VDict <$> dicts)) params)
    as [kwargs|e]; [|done].
  by rewrite call_generate_with_retry_run.
Qed.

Lemma app_singleton_neq {A} (l : list A) (x : A) : l ≠ l ++ [x].
Proof.
  intros Heq. apply (f_equal length) in Heq. rewrite length_app in Heq.
  cbn in Heq. lia.
Qed.

(** The calls [generate] adds to the log: none when the request cannot be
    built, otherwise the single request it built. *)
Lemma generate_api_calls `{Endpoint}
    (messages : list BaseMessage) (stop : option (list string)) (s : session) :
  api_calls (generate messages stop s).2
  = match (_create_message_dicts messages stop s).1 with
    | Raises _ => api_calls s
    | Returns (dicts, params) =>
        match keyword_call "messages" (VList (VDict <$> dicts)) params with
        | Raises _ => api_calls s
        | Returns kwargs => api_calls s ++ [kwargs]
        end
    end.
Proof.
  rewrite generate_run.
  destruct (_create_message_dicts messages stop s).1 as [[dicts params]|e]; [|done].
  destruct (keyword_call "messages" (VList (VDict <$> dicts)) params)
    as [kwargs|e]; [|done].
  cbn. destruct (generate_with_retry (self s) kwargs).1 as [response|e]; [|done].
  by rewrite create_llm_result_session.
Qed.

(** C6, amended. An invocation of [generate] invokes [generate_with_retry]
    at most once. It invokes it exactly once, with the messages and
    parameters it built, whenever the request is built and the parameters
    have no ["messages"] key of their own; it does not invoke it at all when
    building the request raises, and then raises the same exception. *)
Theorem generate_calls_once `{Endpoint}
    (messages : list BaseMessage) (stop : option (list string)) (s : session) :
  (api_calls (generate messages stop s).2 = api_calls s
   ∨ ∃ kwargs, api_calls (generate messages stop s).2 = api_calls s ++ [kwargs])
  ∧ (∀ dicts params,
       (_create_message_dicts messages stop s).1 = Returns (dicts, params) →
       params !! "messages" = None →
       api_calls (generate messages stop s).2
       = api_calls s ++ [<["messages" := VList (VDict <$> dicts)]> params])
  ∧ (∀ e,
       (_create_message_dicts messages stop s).1 = Raises e →
       (generate messages stop s).1 = Raises e
       ∧ api_calls (generate messages stop s).2 = api_calls s).
Proof.
  split; [|split].
  - rewrite generate_api_calls.
    destruct (_create_message_dicts messages stop s).1 as [[dicts params]|e];
      [|by left].
    destruct (keyword_call "messages" (VList (VDict <$> dicts)) params)
      as [kwargs|e]; [right; by exists kwargs|by left].
  - intros dicts params Hbuilt Hfresh. rewrite generate_api_calls, Hbuilt.
    unfold keyword_call. by rewrite Hfresh.
  - intros e He. split.
    + rewrite generate_run. by rewrite He.
    + rewrite generate_api_calls. by rewrite He.
Qed.

(** Whatever [generate] does to the instance, the inherited method did. *)
Lemma generate_keeps_instance `{E : Endpoint}
    (messages : list BaseMessage) (stop : option (list string)) (s : session) :
  preserves_instance E →
  self (generate messages stop s).2 = self s.
Proof.
  intros Hkeep. rewrite generate_run.
  destruct (_create_message_dicts messages stop s).1 as [[dicts params]|e]; [|done].
  destruct (keyword_call "messages" (VList (VDict <$> dicts)) params)
    as [kwargs|e]; [|done].
  cbn. destruct (generate_with_retry (self s) kwargs).1 as [response|e].
  - rewrite create_llm_result_session. cbn. apply Hkeep.
  - cbn. apply Hkeep.
Qed.

(** C7. Provided the inherited [generate_with_retry] reassigns no field,
    every configuration field of the instance is after [generate] what it
    was before, whether [generate] returns or raises. *)
Theorem generate_preserves_configuration `{E : Endpoint}
    (messages : list BaseMessage) (stop : option (list string)) (s : session) :
  preserves_instance E →
  let after := self (generate messages stop s).2 in
  model_name after = model_name (self s)
  ∧ temperature after = temperature (self s)
  ∧ model_kwargs after = model_kwargs (self s)
  ∧ openai_api_key after = openai_api_key (self s)
  ∧ openai_organization after = openai_organization (self s)
  ∧ request_timeout after = request_timeout (self s)
  ∧ max_retries after = max_retries (self s)
  ∧ max_tokens after = max_tokens (self s)
  ∧ client after = client (self s).
Proof.
  intros Hkeep. cbv zeta.
  by rewrite (generate_keeps_instance messages stop s Hkeep).
Qed.

(** C8. With a stop list given: if the default parameters already carry
    ["stop"], [generate] raises [ValueError] and the session, call log
    included, is as before; if they do not, the parameters of the request
    carry ["stop"] set to the given list, and so do the keyword arguments of
    the call. With no stop list, the parameters are the defaults with the
    model name and nothing more, so their ["stop"] entry is the defaults'. *)
Theorem generate_stop_handling `{Endpoint}
    (messages : list BaseMessage) (stop : list string) (s : session) :
  (is_Some (_default_params (self s) !! "stop") →
   generate messages (Some stop) s
   = (Raises (ValueError stop_conflict_message), s))
  ∧ (_default_params (self s) !! "stop" = None →
     ∀ dicts params,
       (_create_message_dicts messages (Some stop) s).1 = Returns (dicts, params) →
       params !! "stop" = Some (stop_value stop)
       ∧ ∀ kwargs,
           api_calls (generate messages (Some stop) s).2 = api_calls s ++ [kwargs] →
           kwargs !! "stop" = Some (stop_value stop))
  ∧ (∀ dicts params,
       (_create_message_dicts messages None s).1 = Returns (dicts, params) →
       params = base_params (self s)
       ∧ params !! "stop" = _default_params (self s) !! "stop"
       ∧ ∀ kwargs,
           api_calls (generate messages None s).2 = api_calls s ++ [kwargs] →
           kwargs !! "stop" = _default_params (self s) !! "stop").
Proof.
  split; [|split].
  - intros Hdefault. rewrite generate_run.
    rewrite create_message_dicts_conflict; [done|].
    split; [by eexists|done].
  - intros Hdefault dicts params Hbuilt.
    pose proof Hbuilt as (_ & _ & ->)%create_message_dicts_returns.
    assert (Hstop : params_with (Some stop) (self s) !! "stop"
                    = Some (stop_value stop)) by apply lookup_insert_eq.
    split; [done|]. intros kwargs. rewrite generate_api_calls, Hbuilt.
    destruct (keyword_call "messages" (VList (VDict <$> dicts))
                (params_with (Some stop) (self s))) as [kwargs'|e] eqn:Hcall.
    + intros [= <-]%(inj (app (api_calls s))).
      apply keyword_call_Returns in Hcall as [_ ->].
      by rewrite lookup_insert_ne.
    + intros Hsame. by apply app_singleton_neq in Hsame.
  - intros dicts params Hbuilt.
    pose proof Hbuilt as (_ & _ & ->)%create_message_dicts_returns.
    cbn. split; [done|]. split; [apply base_params_stop|].
    intros kwargs. rewrite generate_api_calls, Hbuilt.
    destruct (keyword_call "messages" (VList (VDict <$> dicts))
                (params_with None (self s))) as [kwargs'|e] eqn:Hcall.
    + intros [= <-]%(inj (app (api_calls s))).
      apply keyword_call_Returns in Hcall as [_ ->].
      rewrite lookup_insert_ne by done. apply base_params_stop.
    + intros Hsame. by apply app_singleton_neq in Hsame.
Qed.

(** C9. Whenever [generate] returns a result, its [llm_output] has a
    ["model_name"] entry, equal to the [model_name] field of the instance
    whatever the response held; with an inherited [generate_with_retry] that
    reassigns no field this is the field as it was when [generate] began. *)
Theorem generate_model_name `{E : Endpoint}
    (messages : list BaseMessage) (stop : option (list string)) (s : session)
    (r : LLMResult) :
  (generate messages stop s).1 = Returns r →
  llm_output r !! "model_name"
  = Some (VStr (model_name (self (generate messages stop s).2)))
  ∧ (preserves_instance E →
     llm_output r !! "model_name" = Some (VStr (model_name (self s)))).
Proof.
  intros Hr.
  assert (Hfinal : llm_output r !! "model_name"
                   = Some (VStr (model_name (self (generate messages stop s).2)))).
  { revert Hr. rewrite generate_run.
    destruct (_create_message_dicts messages stop s).1 as [[dicts params]|e];
      [|done].
    destruct (keyword_call "messages" (VList (VDict <$> dicts)) params)
      as [kwargs|e]; [|done].
    cbn. destruct (generate_with_retry (self s) kwargs).1 as [response|e]; [|done].
    intros Hr. rewrite create_llm_result_session.
    by apply create_llm_result_model_name in Hr. }
  split; [done|].
  intros Hkeep. rewrite Hfinal.
  by rewrite generate_keeps_instance.
Qed.

End round_trip.

Example generate_greeting :
  @generate pair_messages kwargs_defaults
    (constant_endpoint (Returns two_choice_response)) greeting None (fresh_session ∅)
  = (Returns two_choice_result,
     {| self := adapter_with ∅;
        api_calls := [ {[ "model" := VStr "gpt-3.5-turbo"; "temperature" := VInt 0;
                          "messages" := VList (VDict <$> greeting_dicts) ]} ] |}).
Proof. vm_compute. reflexivity. Qed.

Lemma constant_endpoint_preserves (answer : outcome dict) :
  preserves_instance (constant_endpoint answer).
Proof. intros this kwargs. reflexivity. Qed.

(** C6, as stated, fails: an invocation of [generate] with a stop list, on
    an instance whose [model_kwargs] already carry ["stop"], raises without
    invoking [generate_with_retry] even once. *)
Lemma generate_stop_conflict_calls_nothing :
  (@generate pair_messages kwargs_defaults
     (constant_endpoint (Returns two_choice_response)) greeting (Some ["END"])
     (fresh_session stop_in_kwargs)).1
  = Raises (ValueError stop_conflict_message)
  ∧ length (api_calls
      (@generate pair_messages kwargs_defaults
         (constant_endpoint (Returns two_choice_response)) greeting (Some ["END"])
         (fresh_session stop_in_kwargs)).2)
    = length (api_calls (fresh_session stop_in_kwargs))
  ∧ length (api_calls
      (@generate pair_messages kwargs_defaults
         (constant_endpoint (Returns two_choice_response)) greeting (Some ["END"])
         (fresh_session stop_in_kwargs)).2)
    ≠ S (length (api_calls (fresh_session stop_in_kwargs))).
Proof.
  split; [vm_compute; reflexivity|]. split; [vm_compute; reflexivity|].
  vm_compute. discriminate.
Qed.

Lemma generate_calls_once_witness :
  (@_create_message_dicts pair_messages kwargs_defaults greeting None
     (fresh_session ∅)).1
  = Returns (greeting_dicts, @base_params kwargs_defaults (adapter_with ∅))
  ∧ @base_params kwargs_defaults (adapter_with ∅) !! "messages" = None
  ∧ api_calls
      (@generate pair_messages kwargs_defaults
         (constant_endpoint (Returns two_choice_response)) greeting None
         (fresh_session ∅)).2
    = api_calls (fresh_session ∅)
      ++ [<["messages" := VList (VDict <$> greeting_dicts)]>
            (@base_params kwargs_defaults (adapter_with ∅))].
Proof.
  split; [vm_compute; reflexivity|]. split; [vm_compute; reflexivity|].
  destruct (@generate_calls_once pair_messages kwargs_defaults
              (constant_endpoint (Returns two_choice_response)) greeting None
              (fresh_session ∅)) as (_ & Hone & _).
  apply Hone; vm_compute; reflexivity.
Defined.

Lemma generate_preserves_configuration_witness :
  preserves_instance (constant_endpoint (Returns two_choice_response))
  ∧ model_name
      (self (@generate pair_messages kwargs_defaults
               (constant_endpoint (Returns two_choice_response)) greeting None
               (fresh_session ∅)).2)
    = model_name (self (fresh_session ∅)).
Proof.
  split; [intros this kwargs; reflexivity|].
  destruct (@generate_preserves_configuration pair_messages kwargs_defaults
              (constant_endpoint (Returns two_choice_response)) greeting None
              (fresh_session ∅)) as [Hname _].
  - intros this kwargs. reflexivity.
  - exact Hname.
Defined.

Lemma generate_stop_handling_witness :
  (is_Some (@_default_params kwargs_defaults (self (fresh_session stop_in_kwargs))
            !! "stop")
   ∧ @generate pair_messages kwargs_defaults
       (constant_endpoint (Returns two_choice_response)) greeting (Some ["END"])
       (fresh_session stop_in_kwargs)
     = (Raises (ValueError stop_conflict_message), fresh_session stop_in_kwargs))
  ∧ (@_default_params kwargs_defaults (self (fresh_session ∅)) !! "stop" = None
     ∧ (@_create_message_dicts pair_messages kwargs_defaults greeting (Some ["END"])
          (fresh_session ∅)).1
       = Returns (greeting_dicts,
                  @params_with kwargs_defaults (Some ["END"]) (adapter_with ∅))
     ∧ @params_with kwargs_defaults (Some ["END"]) (adapter_with ∅) !! "stop"
       = Some (stop_value ["END"]))
  ∧ ((@_create_message_dicts pair_messages kwargs_defaults greeting None
        (fresh_session ∅)).1
     = Returns (greeting_dicts, @base_params kwargs_defaults (adapter_with ∅))
     ∧ @base_params kwargs_defaults (adapter_with ∅) !! "stop"
       = @_default_params kwargs_defaults (self (fresh_session ∅)) !! "stop").
Proof.
  assert (Hconflict : is_Some (@_default_params kwargs_defaults
                                 (self (fresh_session stop_in_kwargs)) !! "stop")).
  { eexists. vm_compute. reflexivity. }
  assert (Hfree : @_default_params kwargs_defaults (self (fresh_session ∅))
                  !! "stop" = None).
  { vm_compute. reflexivity. }
  assert (Hsome : (@_create_message_dicts pair_messages kwargs_defaults greeting
                     (Some ["END"]) (fresh_session ∅)).1
                  = Returns (greeting_dicts,
                       @params_with kwargs_defaults (Some ["END"]) (adapter_with ∅))).
  { vm_compute. reflexivity. }
  assert (Hnone : (@_create_message_dicts pair_messages kwargs_defaults greeting
                     None (fresh_session ∅)).1
                  = Returns (greeting_dicts,
                       @base_params kwargs_defaults (adapter_with ∅))).
  { vm_compute. reflexivity. }
  split; [|split].
  - split; [exact Hconflict|].
    destruct (@generate_stop_handling pair_messages kwargs_defaults
                (constant_endpoint (Returns two_choice_response)) greeting ["END"]
                (fresh_session stop_in_kwargs)) as (Hraise & _ & _).
    exact (Hraise Hconflict).
  - split; [exact Hfree|]. split; [exact Hsome|].
    destruct (@generate_stop_handling pair_messages kwargs_defaults
                (constant_endpoint (Returns two_choice_response)) greeting ["END"]
                (fresh_session ∅)) as (_ & Hset & _).
    destruct (Hset Hfree _ _ Hsome) as [Hstop _]. exact Hstop.
  - split; [exact Hnone|].
    destruct (@generate_stop_handling pair_messages kwargs_defaults
                (constant_endpoint (Returns two_choice_response)) greeting ["END"]
                (fresh_session ∅)) as (_ & _ & Hplain).
    destruct (Hplain _ _ Hnone) as (_ & Hstop & _). exact Hstop.
Defined.

Lemma generate_model_name_witness :
  (@generate pair_messages kwargs_defaults
     (constant_endpoint (Returns two_choice_response)) greeting None
     (fresh_session ∅)).1
  = Returns two_choice_result
  ∧ preserves_instance (constant_endpoint (Returns two_choice_response))
  ∧ llm_output two_choice_result !! "model_name"
    = Some (VStr (model_name (self (fresh_session ∅)))).
Proof.
  assert (Hr : (@generate pair_messages kwargs_defaults
                  (constant_endpoint (Returns two_choice_response)) greeting None
                  (fresh_session ∅)).1 = Returns two_choice_result).
  { vm_compute. reflexivity. }
  assert (Hkeep : preserves_instance
                    (constant_endpoint (Returns two_choice_response))).
  { intros this kwargs. reflexivity. }
  split; [exact Hr|]. split; [exact Hkeep|].
  destruct (@generate_model_name pair_messages kwargs_defaults
              (constant_endpoint (Returns two_choice_response)) greeting None
              (fresh_session ∅) two_choice_result Hr) as [_ Hinitial].
  exact (Hinitial Hkeep).
Defined.

(** * Further properties of the adapter *)

(** ** Validation: outcomes, frame and idempotence *)

(** What a returning validation tells about the interpreter it ran in. *)
Lemma validate_environment_inv (values v : dict) (i i' : interpreter) :
  validate_environment values i = (Returns v, i') →
  ∃ key m c,
    environ i !! "OPENAI_API_KEY" = Some key ∧ openai i = Some m
    ∧ ChatCompletion m = Some c
    ∧ v = <["client" := c]> values ∧ i' = set_api_key key i.
Proof.
  unfold validate_environment, os_environ, import_openai, get_ChatCompletion.
  cbv [mbind Py_bind modify raise mret Py_ret].
  destruct (environ i !! "OPENAI_API_KEY") as [key|] eqn:Hkey; [|done].
  destruct (openai i) as [m|] eqn:Hm; [|done].
  destruct (ChatCompletion m) as [c|] eqn:Hc; [|done].
  intros [= <- <-]. by exists key, m, c.
Qed.

Lemma validate_environment_complete
    (values : dict) (i : interpreter) (key : string) (m : openai_module) (c : value) :
  environ i !! "OPENAI_API_KEY" = Some key → openai i = Some m →
  ChatCompletion m = Some c →
  validate_environment values i
  = (Returns (<["client" := c]> values), set_api_key key i).
Proof.
  intros Hkey Hm Hc.
  unfold validate_environment, os_environ, import_openai, get_ChatCompletion.
  cbv [mbind Py_bind modify raise mret Py_ret]. by rewrite Hkey, Hm, Hc.
Qed.

(** X1. Validation returns exactly when the key is in the environment and
    the installed [openai] package has a [ChatCompletion] attribute; it then
    returns the values with ["client"] set to that attribute, and has stored
    the environment's key on the module. *)
Theorem validate_environment_returns_iff (values v : dict) (i i' : interpreter) :
  validate_environment values i = (Returns v, i')
  ↔ ∃ key m c,
      environ i !! "OPENAI_API_KEY" = Some key ∧ openai i = Some m
      ∧ ChatCompletion m = Some c
      ∧ v = <["client" := c]> values ∧ i' = set_api_key key i.
Proof.
  split; [apply validate_environment_inv|].
  intros (key & m & c & Hkey & Hm & Hc & -> & ->).
  by apply (validate_environment_complete values i key m c).
Qed.

(** X2. With the key set but the [openai] package not installed, validation
    raises the [ValueError] that asks to install it, and the interpreter is
    left as it was. *)
Theorem validate_environment_not_importable
    (values : dict) (i : interpreter) (key : string) :
  environ i !! "OPENAI_API_KEY" = Some key →
  openai i = None →
  validate_environment values i = (Raises (ValueError import_error_message), i).
Proof.
  intros Hkey Hm. unfold validate_environment, os_environ, import_openai.
  cbv [mbind Py_bind]. by rewrite Hkey, Hm.
Qed.

Lemma validate_environment_not_importable_witness :
  environ (interpreter_with with_key None) !! "OPENAI_API_KEY" = Some "sk-test"
  ∧ openai (interpreter_with with_key None) = None
  ∧ validate_environment {[ "model_name" := VStr "gpt-4" ]}
      (interpreter_with with_key None)
    = (Raises (ValueError import_error_message), interpreter_with with_key None).
Proof.
  split; [reflexivity|]. split; [reflexivity|].
  apply (validate_environment_not_importable _ (interpreter_with with_key None)
           "sk-test"); reflexivity.
Defined.

Lemma set_api_key_idemp (key : string) (i : interpreter) :
  set_api_key key (set_api_key key i) = set_api_key key i.
Proof. unfold set_api_key. cbn. by destruct (openai i). Qed.

(** X4. Validation is idempotent: run again on the values it returned, in
    the interpreter it left, it returns the same values and changes
    nothing. *)
Theorem validate_environment_idempotent (values v : dict) (i i' : interpreter) :
  validate_environment values i = (Returns v, i') →
  validate_environment v i' = (Returns v, i').
Proof.
  intros (key & m & c & Hkey & Hm & Hc & -> & ->)%validate_environment_inv.
  rewrite (validate_environment_complete _ (set_api_key key i) key
             {| api_key := Some key; ChatCompletion := ChatCompletion m |} c).
  - by rewrite insert_insert_eq, set_api_key_idemp.
  - done.
  - unfold set_api_key. cbn. by rewrite Hm.
  - done.
Qed.

Lemma validate_environment_idempotent_witness :
  validate_environment ∅ (interpreter_with with_key (Some recent_openai))
  = (Returns {[ "client" := VObject "openai.ChatCompletion" ]}, validated_interpreter)
  ∧ validate_environment {[ "client" := VObject "openai.ChatCompletion" ]}
      validated_interpreter
    = (Returns {[ "client" := VObject "openai.ChatCompletion" ]}, validated_interpreter).
Proof.
  assert (Hfirst : validate_environment ∅
                     (interpreter_with with_key (Some recent_openai))
                   = (Returns {[ "client" := VObject "openai.ChatCompletion" ]},
                      validated_interpreter)).
  { vm_compute. reflexivity. }
  split; [exact Hfirst|].
  exact (validate_environment_idempotent _ _ _ _ Hfirst).
Defined.

(** X5. Validation reads nothing from the values it is given: its outcome is
    its outcome on the empty dict with the given entries carried along, a
    given ["client"] being overwritten; the interpreter it leaves and the
    exception it raises do not depend on them. So an [openai_api_key] among
    the values neither replaces nor supplements the environment's key. *)
Theorem validate_environment_ignores_values (values : dict) (i : interpreter) :
  validate_environment values i
  = ((λ r, r ∪ values) <$> (validate_environment ∅ i).1,
     (validate_environment ∅ i).2).
Proof.
  unfold validate_environment, os_environ, import_openai, get_ChatCompletion.
  cbv [mbind Py_bind modify raise mret Py_ret].
  destruct (environ i !! "OPENAI_API_KEY") as [key|]; [|done].
  destruct (openai i) as [m|]; [|done].
  destruct (ChatCompletion m) as [c|]; [|done].
  cbn. by rewrite insert_empty, <- insert_union_singleton_l.
Qed.

Lemma validate_environment_returns_iff_witness :
  validate_environment ∅ (interpreter_with with_key (Some recent_openai))
  = (Returns (<["client" := VObject "openai.ChatCompletion"]> ∅),
     set_api_key "sk-test" (interpreter_with with_key (Some recent_openai))).
Proof.
  apply (proj2 (validate_environment_returns_iff ∅ _
                  (interpreter_with with_key (Some recent_openai)) _)).
  exists "sk-test", recent_openai, (VObject "openai.ChatCompletion").
  repeat split; reflexivity.
Defined.

(** ** The request: which keys, which values, which error *)

Lemma mapM_first_failure {A B} (f : A → outcome B)
    (before after : list A) (x : A) (e : exception) :
  (∀ y, y ∈ before → returned (f y)) →
  f x = Raises e →
  mapM f (before ++ x :: after) = Raises e.
Proof.
  intros Hbefore Hx. induction before as [|y before IH]; cbn [app].
  - rewrite mapM_cons, Hx. done.
  - rewrite mapM_cons. destruct (Hbefore y) as [b Hb]; [by left|].
    rewrite Hb. cbn. rewrite IH; [done|]. intros z Hz. apply Hbefore. by right.
Qed.

Section request_shape.
Context `{Messages, BaseLanguageModel}.

(** X6. The parameters [_create_message_dicts] returns have the keys of the
    default parameters, ["model"], and ["stop"] when a stop list is given:
    no other key is ever added, and none is dropped. *)
Theorem create_message_dicts_keys
    (messages : list BaseMessage) (stop : option (list string)) (s : session)
    (dicts : list dict) (params : dict) :
  (_create_message_dicts messages stop s).1 = Returns (dicts, params) →
  dom params
  = dom (_default_params (self s)) ∪ {["model"]}
    ∪ match stop with Some _ => {["stop"]} | None => ∅ end.
Proof.
  intros (_ & _ & ->)%create_message_dicts_returns.
  destruct stop as [stop|]; cbn; unfold base_params.
  - rewrite dom_insert_L, dom_union_L, dom_singleton_L.
    by rewrite (comm_L (∪) {["stop"]}).
  - rewrite dom_union_L, dom_singleton_L. by rewrite (right_id_L ∅ (∪)).
Qed.

(** X7. Messages are converted in order and the first one the converter
    rejects decides the outcome: absent a stop conflict,
    [_create_message_dicts] raises that message's exception, whatever comes
    after it, and leaves the session as it was. *)
Theorem create_message_dicts_first_failure
    (before after : list BaseMessage) (m : BaseMessage) (e : exception)
    (stop : option (list string)) (s : session) :
  ¬ stop_conflict stop (self s) →
  (∀ m', m' ∈ before → returned (convert_message_to_dict m')) →
  convert_message_to_dict m = Raises e →
  _create_message_dicts (before ++ m :: after) stop s = (Raises e, s).
Proof.
  intros Hfree Hbefore Hm.
  rewrite create_message_dicts_no_conflict by done.
  by rewrite (mapM_first_failure _ before after m e).
Qed.

End request_shape.

Lemma create_message_dicts_keys_witness :
  (@_create_message_dicts pair_messages kwargs_defaults greeting (Some ["END"])
     (fresh_session ∅)).1
  = Returns (greeting_dicts,
             @params_with kwargs_defaults (Some ["END"]) (adapter_with ∅))
  ∧ dom (@params_with kwargs_defaults (Some ["END"]) (adapter_with ∅))
    = dom (@_default_params kwargs_defaults (self (fresh_session ∅)))
      ∪ {["model"]} ∪ {["stop"]}.
Proof.
  assert (Hrun : (@_create_message_dicts pair_messages kwargs_defaults greeting
                    (Some ["END"]) (fresh_session ∅)).1
                 = Returns (greeting_dicts,
                      @params_with kwargs_defaults (Some ["END"]) (adapter_with ∅))).
  { vm_compute. reflexivity. }
  split; [exact Hrun|].
  exact (@create_message_dicts_keys pair_messages kwargs_defaults greeting
           (Some ["END"]) (fresh_session ∅) _ _ Hrun).
Defined.

Lemma create_message_dicts_first_failure_witness :
  ¬ @stop_conflict kwargs_defaults None (self (fresh_session ∅))
  ∧ checked_pair_to_dict ("tool", "42") = Raises (ValueError "Got unknown type")
  ∧ @_create_message_dicts checked_messages kwargs_defaults
      ([("system", "Be brief.")] ++ ("tool", "42") :: [("user", "Hello?")]) None
      (fresh_session ∅)
    = (Raises (ValueError "Got unknown type"), fresh_session ∅).
Proof.
  assert (Hfree : ¬ @stop_conflict kwargs_defaults None (self (fresh_session ∅))).
  { intros [[stop Hstop] _]. discriminate Hstop. }
  split; [exact Hfree|]. split; [vm_compute; reflexivity|].
  apply (@create_message_dicts_first_failure checked_messages kwargs_defaults
           [("system", "Be brief.")] [("user", "Hello?")] ("tool", "42")).
  - exact Hfree.
  - intros m' Hm'. apply list_elem_of_In in Hm'. destruct Hm' as [<-|[]].
    eexists. vm_compute. reflexivity.
  - vm_compute. reflexivity.
Defined.

(** ** The response: what is read, what is kept, which error *)

Section response_shape.
Context `{Messages}.

(** X8. The [llm_output] of a result has exactly the two keys
    ["token_usage"] and ["model_name"]: no other field of the response (its
    id, the model the provider reports, ...) is carried over. *)
Theorem create_llm_result_output_keys
    (response : dict) (s : session) (r : LLMResult) :
  (_create_llm_result response s).1 = Returns r →
  dom (llm_output r) = {["token_usage"; "model_name"]}.
Proof.
  intros (choices & items & ms & usage & _ & _ & _ & _ & ->)
    %create_llm_result_returns.
  cbn. by rewrite dom_insert_L, dom_singleton_L.
Qed.

(** X9. [_create_llm_result] reads the response through its ["choices"] and
    ["usage"] entries only: two responses that agree on these two have the
    same outcome, whatever else they hold. *)
Theorem create_llm_result_reads_two_keys (response1 response2 : dict) (s : session) :
  response1 !! "choices" = response2 !! "choices" →
  response1 !! "usage" = response2 !! "usage" →
  _create_llm_result response1 s = _create_llm_result response2 s.
Proof.
  intros Hchoices Husage. rewrite !create_llm_result_run.
  unfold getitem. by rewrite Hchoices, Husage.
Qed.

(** X10. A response without ["choices"] raises [KeyError] for that key, and
    one whose ["choices"] is [None] raises [TypeError], in both cases whether
    or not ["usage"] is there. *)
Theorem create_llm_result_no_choices (response : dict) (s : session) :
  (response !! "choices" = None →
   _create_llm_result response s = (Raises (KeyError "choices"), s))
  ∧ (response !! "choices" = Some VNone →
     ∃ msg, _create_llm_result response s = (Raises (TypeError msg), s)).
Proof.
  split; intros Hchoices; rewrite create_llm_result_run; unfold getitem;
    rewrite Hchoices; [done|by eexists].
Qed.

(** X11. Choices are handled in order and the first one without a usable
    message decides the outcome: [_create_llm_result] raises that choice's
    exception, whatever comes after it and whether or not ["usage"] is
    there; a choice that is a mapping without ["message"] gives
    [KeyError]. *)
Theorem create_llm_result_first_bad_choice
    (response : dict) (before after : list value) (res : value) (e : exception)
    (s : session) :
  response !! "choices" = Some (VList (before ++ res :: after)) →
  (∀ res', res' ∈ before → returned (choice_message res')) →
  choice_message res = Raises e →
  _create_llm_result response s = (Raises e, s)
  ∧ (∀ d, res = VDict d → d !! "message" = None → e = KeyError "message").
Proof.
  intros Hchoices Hbefore Hres. split.
  - rewrite create_llm_result_run. unfold getitem. rewrite Hchoices. cbn.
    by rewrite (mapM_first_failure _ before after res e).
  - intros d -> Hd. unfold choice_message in Hres. cbn in Hres.
    unfold getitem in Hres. rewrite Hd in Hres. by injection Hres as <-.
Qed.

End response_shape.

Lemma create_llm_result_output_keys_witness :
  (@_create_llm_result pair_messages verbose_response (fresh_session ∅)).1
  = Returns two_choice_result
  ∧ dom (llm_output two_choice_result) = {["token_usage"; "model_name"]}.
Proof.
  assert (Hr : (@_create_llm_result pair_messages verbose_response
                  (fresh_session ∅)).1 = Returns two_choice_result).
  { vm_compute. reflexivity. }
  split; [exact Hr|].
  exact (@create_llm_result_output_keys pair_messages verbose_response
           (fresh_session ∅) two_choice_result Hr).
Defined.

Lemma create_llm_result_reads_two_keys_witness :
  verbose_response !! "choices" = two_choice_response !! "choices"
  ∧ verbose_response !! "usage" = two_choice_response !! "usage"
  ∧ @_create_llm_result pair_messages verbose_response (fresh_session ∅)
    = @_create_llm_result pair_messages two_choice_response (fresh_session ∅).
Proof.
  split; [vm_compute; reflexivity|]. split; [vm_compute; reflexivity|].
  apply (@create_llm_result_reads_two_keys pair_messages); vm_compute; reflexivity.
Defined.

Lemma create_llm_result_no_choices_witness :
  ({[ "usage" := usage_report ]} : dict) !! "choices" = None
  ∧ @_create_llm_result pair_messages {[ "usage" := usage_report ]} (fresh_session ∅)
    = (Raises (KeyError "choices"), fresh_session ∅).
Proof.
  split; [reflexivity|].
  apply (@create_llm_result_no_choices pair_messages). reflexivity.
Defined.

Lemma create_llm_result_first_bad_choice_witness :
  broken_choice_response !! "choices"
  = Some (VList ([choice "assistant" "Hello"] ++ VDict ∅
                   :: [choice "assistant" "Hi there"]))
  ∧ @choice_message pair_messages (VDict ∅) = Raises (KeyError "message")
  ∧ @_create_llm_result pair_messages broken_choice_response (fresh_session ∅)
    = (Raises (KeyError "message"), fresh_session ∅).
Proof.
  split; [reflexivity|]. split; [reflexivity|].
  apply (@create_llm_result_first_bad_choice pair_messages broken_choice_response
           [choice "assistant" "Hello"] [choice "assistant" "Hi there"] (VDict ∅)).
  - reflexivity.
  - intros res' Hres'. apply list_elem_of_In in Hres'. destruct Hres' as [<-|[]].
    eexists. vm_compute. reflexivity.
  - reflexivity.
Defined.

(** ** The round trip: what reaches the endpoint, what comes back *)

Section round_trip_shape.
Context `{Messages, BaseLanguageModel}.

(** The request [generate] sends, when it sends one. *)
Lemma generate_call_inv `{Endpoint}
    (messages : list BaseMessage) (stop : option (list string)) (s : session)
    (kwargs : dict) :
  api_calls (generate messages stop s).2 = api_calls s ++ [kwargs] →
  ∃ dicts,
    ¬ stop_conflict stop (self s)
    ∧ mapM convert_message_to_dict messages = Returns dicts
    ∧ params_with stop (self s) !! "messages" = None
    ∧ kwargs = <["messages" := VList (VDict <$> dicts)]> (params_with stop (self s)).
Proof.
  rewrite generate_api_calls.
  destruct (_create_message_dicts messages stop s).1 as [[dicts params]|e] eqn:Hb.
  - apply create_message_dicts_returns in Hb as (Hfree & Hdicts & ->).
    destruct (keyword_call "messages" (VList (VDict <$> dicts))
                (params_with stop (self s))) as [kwargs'|e] eqn:Hcall.
    + intros [= <-]%(inj (app (api_calls s))).
      apply keyword_call_Returns in Hcall as [Hnone ->]. by exists dicts.
    + intros Hsame. by apply app_singleton_neq in Hsame.
  - intros Hsame. by apply app_singleton_neq in Hsame.
Qed.

Lemma params_with_default
    (stop : option (list string)) (this : ChatOpenAI) (key : string) (v : value) :
  ¬ stop_conflict stop this →
  _default_params this !! key = Some v →
  params_with stop this !! key = Some v.
Proof.
  intros Hfree Hv.
  assert (Hbase : base_params this !! key = Some v).
  { unfold base_params. by apply lookup_union_Some_l. }
  destruct stop as [stop|]; cbn; [|done].
  rewrite lookup_insert_ne; [done|]. intros <-.
  apply Hfree. split; by eexists.
Qed.

(** X12. Every default parameter reaches the endpoint with the value the
    defaults give it. In particular a ["model"] among the defaults is what
    is sent, and [self.model_name] is sent only when the defaults have
    none. *)
Theorem generate_forwards_defaults `{Endpoint}
    (messages : list BaseMessage) (stop : option (list string)) (s : session)
    (kwargs : dict) :
  api_calls (generate messages stop s).2 = api_calls s ++ [kwargs] →
  (∀ key v, _default_params (self s) !! key = Some v → kwargs !! key = Some v)
  ∧ kwargs !! "model"
    = Some (default (VStr (model_name (self s)))
              (_default_params (self s) !! "model")).
Proof.
  intros (dicts & Hfree & _ & Hnone & ->)%generate_call_inv.
  assert (Hfwd : ∀ key v, _default_params (self s) !! key = Some v →
                   <["messages" := VList (VDict <$> dicts)]>
                     (params_with stop (self s)) !! key = Some v).
  { intros key v Hv. pose proof (params_with_default stop _ key v Hfree Hv) as Hp.
    rewrite lookup_insert_ne; [done|]. intros <-. by rewrite Hnone in Hp. }
  split; [exact Hfwd|].
  destruct (_default_params (self s) !! "model") as [v|] eqn:Hmodel; cbn.
  - by apply Hfwd.
  - rewrite lookup_insert_ne by done.
    assert (Hbase : base_params (self s) !! "model"
                    = Some (VStr (model_name (self s)))).
    { unfold base_params. rewrite lookup_union_r by done.
      apply lookup_singleton_eq. }
    destruct stop as [stop|]; cbn; [|done]. by rewrite lookup_insert_ne.
Qed.

(** X13. An exception of the endpoint is not caught: when the request is
    built and [generate_with_retry] raises, [generate] raises the same
    exception, the one call having been made. *)
Theorem generate_propagates_endpoint_error `{Endpoint}
    (messages : list BaseMessage) (stop : option (list string)) (s : session)
    (dicts : list dict) (params : dict) (e : exception) :
  (_create_message_dicts messages stop s).1 = Returns (dicts, params) →
  params !! "messages" = None →
  (generate_with_retry (self s)
     (<["messages" := VList (VDict <$> dicts)]> params)).1 = Raises e →
  (generate messages stop s).1 = Raises e
  ∧ api_calls (generate messages stop s).2
    = api_calls s ++ [<["messages" := VList (VDict <$> dicts)]> params].
Proof.
  intros Hbuilt Hnone Hraise. rewrite generate_run, Hbuilt.
  unfold keyword_call. rewrite Hnone. cbn. by rewrite Hraise.
Qed.

(** X14. A ["messages"] key among the parameters collides with the
    [messages] keyword of the call: [generate] raises [TypeError] and
    [generate_with_retry] is never entered. *)
Theorem generate_messages_collision `{Endpoint}
    (messages : list BaseMessage) (stop : option (list string)) (s : session) :
  is_Some (_default_params (self s) !! "messages") →
  ¬ stop_conflict stop (self s) →
  (∀ m, m ∈ messages → returned (convert_message_to_dict m)) →
  ∃ msg, generate messages stop s = (Raises (TypeError msg), s).
Proof.
  intros [v Hv] Hfree Hall.
  destruct (mapM_total convert_message_to_dict messages Hall) as [dicts Hdicts].
  rewrite generate_run, create_message_dicts_no_conflict by done.
  rewrite Hdicts. cbn. unfold keyword_call.
  rewrite (params_with_default stop _ "messages" v Hfree Hv). by eexists.
Qed.

(** X15. The whole round trip. With no stop conflict, no ["messages"] among
    the default parameters, messages the converter accepts, and an endpoint
    that answers the request with a response holding ["usage"] and a list of
    usable choices, [generate] returns the choices' messages in order with
    that usage and [self.model_name], having made exactly that one call. *)
Theorem generate_round_trip `{Endpoint}
    (messages : list BaseMessage) (stop : option (list string)) (s : session)
    (dicts : list dict) (response : dict) (choices : list value)
    (usage : value) (ms : list BaseMessage) :
  ¬ stop_conflict stop (self s) →
  _default_params (self s) !! "messages" = None →
  mapM convert_message_to_dict messages = Returns dicts →
  generate_with_retry (self s)
    (<["messages" := VList (VDict <$> dicts)]> (params_with stop (self s)))
  = (Returns response, self s) →
  response !! "choices" = Some (VList choices) →
  response !! "usage" = Some usage →
  mapM choice_message choices = Returns ms →
  generate messages stop s
  = (Returns {| generations := Build_Generation _ <$> ms;
                llm_output := {[ "token_usage" := usage;
                                 "model_name" := VStr (model_name (self s)) ]} |},
     {| self := self s;
        api_calls := api_calls s
          ++ [<["messages" := VList (VDict <$> dicts)]> (params_with stop (self s))] |}).
Proof.
  intros Hfree Hnone Hdicts Hanswer Hchoices Husage Hms.
  assert (Hparams : params_with stop (self s) !! "messages" = None).
  { destruct stop as [stop|]; cbn; [rewrite lookup_insert_ne by done|];
      by rewrite base_params_lookup_ne. }
  rewrite generate_run, create_message_dicts_no_conflict by done.
  rewrite Hdicts. cbn. unfold keyword_call. rewrite Hparams, Hanswer. cbn.
  rewrite create_llm_result_run. unfold getitem. rewrite Hchoices, Husage. cbn.
  by rewrite Hms.
Qed.

(** X16. [generate] returns a result only after a call that returned: the
    log then holds exactly one new request, it carries the converted
    messages under ["messages"], and the endpoint answered it with a
    response. *)
Theorem generate_result_needs_call `{Endpoint}
    (messages : list BaseMessage) (stop : option (list string)) (s : session)
    (r : LLMResult) :
  (generate messages stop s).1 = Returns r →
  ∃ dicts kwargs response,
    mapM convert_message_to_dict messages = Returns dicts
    ∧ api_calls (generate messages stop s).2 = api_calls s ++ [kwargs]
    ∧ kwargs !! "messages" = Some (VList (VDict <$> dicts))
    ∧ (generate_with_retry (self s) kwargs).1 = Returns response.
Proof.
  rewrite generate_api_calls, generate_run.
  destruct (_create_message_dicts messages stop s).1 as [[dicts params]|e] eqn:Hb;
    [|done].
  apply create_message_dicts_returns in Hb as (_ & Hdicts & ->).
  destruct (keyword_call "messages" (VList (VDict <$> dicts))
              (params_with stop (self s))) as [kwargs|e] eqn:Hcall; [|done].
  apply keyword_call_Returns in Hcall as [_ ->]. cbn.
  destruct (generate_with_retry (self s) _).1 as [response|e] eqn:Hresp; [|done].
  intros _. eexists dicts, _, response.
  split; [done|]. split; [done|]. split; [apply lookup_insert_eq|done].
Qed.

End round_trip_shape.

Lemma generate_forwards_defaults_witness :
  api_calls (@generate pair_messages kwargs_defaults
               (constant_endpoint (Returns two_choice_response)) greeting None
               (fresh_session model_in_kwargs)).2
  = api_calls (fresh_session model_in_kwargs) ++ [overridden_request]
  ∧ model_name (self (fresh_session model_in_kwargs)) = "gpt-3.5-turbo"
  ∧ overridden_request !! "model"
    = Some (default (VStr (model_name (self (fresh_session model_in_kwargs))))
              (@_default_params kwargs_defaults
                 (self (fresh_session model_in_kwargs)) !! "model")).
Proof.
  assert (Hlog : api_calls (@generate pair_messages kwargs_defaults
                    (constant_endpoint (Returns two_choice_response)) greeting None
                    (fresh_session model_in_kwargs)).2
                 = api_calls (fresh_session model_in_kwargs) ++ [overridden_request]).
  { vm_compute. reflexivity. }
  split; [exact Hlog|]. split; [reflexivity|].
  destruct (@generate_forwards_defaults pair_messages kwargs_defaults
              (constant_endpoint (Returns two_choice_response)) greeting None
              (fresh_session model_in_kwargs) overridden_request Hlog)
    as [_ Hmodel].
  exact Hmodel.
Defined.

Lemma generate_propagates_endpoint_error_witness :
  (@_create_message_dicts pair_messages kwargs_defaults greeting None
     (fresh_session ∅)).1
  = Returns (greeting_dicts, @base_params kwargs_defaults (adapter_with ∅))
  ∧ (@generate pair_messages kwargs_defaults
       (constant_endpoint (Raises rate_limited)) greeting None (fresh_session ∅)).1
    = Raises rate_limited
  ∧ api_calls
      (@generate pair_messages kwargs_defaults
         (constant_endpoint (Raises rate_limited)) greeting None (fresh_session ∅)).2
    = api_calls (fresh_session ∅)
      ++ [<["messages" := VList (VDict <$> greeting_dicts)]>
            (@base_params kwargs_defaults (adapter_with ∅))].
Proof.
  assert (Hbuilt : (@_create_message_dicts pair_messages kwargs_defaults greeting
                      None (fresh_session ∅)).1
                   = Returns (greeting_dicts,
                              @base_params kwargs_defaults (adapter_with ∅))).
  { vm_compute. reflexivity. }
  split; [exact Hbuilt|].
  apply (@generate_propagates_endpoint_error pair_messages kwargs_defaults
           (constant_endpoint (Raises rate_limited)) greeting None (fresh_session ∅)
           greeting_dicts (@base_params kwargs_defaults (adapter_with ∅))
           rate_limited Hbuilt).
  - vm_compute. reflexivity.
  - reflexivity.
Defined.

Lemma generate_messages_collision_witness :
  is_Some (@_default_params kwargs_defaults
             (self (fresh_session messages_in_kwargs)) !! "messages")
  ∧ ∃ msg,
      @generate pair_messages kwargs_defaults
        (constant_endpoint (Returns two_choice_response)) greeting None
        (fresh_session messages_in_kwargs)
      = (Raises (TypeError msg), fresh_session messages_in_kwargs).
Proof.
  assert (Hkey : is_Some (@_default_params kwargs_defaults
                            (self (fresh_session messages_in_kwargs))
                          !! "messages")).
  { eexists. vm_compute. reflexivity. }
  split; [exact Hkey|].
  apply (@generate_messages_collision pair_messages kwargs_defaults
           (constant_endpoint (Returns two_choice_response)) greeting None
           (fresh_session messages_in_kwargs) Hkey).
  - intros [[stop Hstop] _]. discriminate Hstop.
  - intros m _. by eexists.
Defined.

Lemma generate_round_trip_witness :
  @generate pair_messages kwargs_defaults
    (constant_endpoint (Returns two_choice_response)) greeting (Some ["END"])
    (fresh_session ∅)
  = (Returns {| generations :=
                  @Build_Generation pair_messages
                    <$> [("assistant", "Hello"); ("assistant", "Hi there")];
                llm_output := {[ "token_usage" := usage_report;
                                 "model_name" := VStr "gpt-3.5-turbo" ]} |},
     {| self := adapter_with ∅;
        api_calls := [] ++ [<["messages" := VList (VDict <$> greeting_dicts)]>
                             (@params_with kwargs_defaults (Some ["END"])
                                (adapter_with ∅))] |}).
Proof.
  apply (@generate_round_trip pair_messages kwargs_defaults
           (constant_endpoint (Returns two_choice_response)) greeting (Some ["END"])
           (fresh_session ∅) greeting_dicts two_choice_response
           [choice "assistant" "Hello"; choice "assistant" "Hi there"]
           usage_report [("assistant", "Hello"); ("assistant", "Hi there")]).
  - intros [_ [v Hv]]. vm_compute in Hv. discriminate Hv.
  - vm_compute. reflexivity.
  - vm_compute. reflexivity.
  - reflexivity.
  - reflexivity.
  - reflexivity.
  - vm_compute. reflexivity.
Defined.

Lemma generate_result_needs_call_witness :
  (@generate pair_messages kwargs_defaults
     (constant_endpoint (Returns two_choice_response)) greeting None
     (fresh_session ∅)).1
  = Returns two_choice_result
  ∧ ∃ dicts kwargs response,
      mapM pair_to_dict greeting = Returns dicts
      ∧ api_calls (@generate pair_messages kwargs_defaults
                     (constant_endpoint (Returns two_choice_response)) greeting None
                     (fresh_session ∅)).2
        = api_calls (fresh_session ∅) ++ [kwargs]
      ∧ kwargs !! "messages" = Some (VList (VDict <$> dicts))
      ∧ (@generate_with_retry (constant_endpoint (Returns two_choice_response))
           (self (fresh_session ∅)) kwargs).1 = Returns response.
Proof.
  assert (Hr : (@generate pair_messages kwargs_defaults
                  (constant_endpoint (Returns two_choice_response)) greeting None
                  (fresh_session ∅)).1 = Returns two_choice_result).
  { vm_compute. reflexivity. }
  split; [exact Hr|].
  exact (@generate_result_needs_call pair_messages kwargs_defaults
           (constant_endpoint (Returns two_choice_response)) greeting None
           (fresh_session ∅) two_choice_result Hr).
Defined.
